(** * Browser state views (browser_use/browser/views.py)

  A shallow embedding of the snapshot and history records of the
  browser-state module, of the two methods of the history record
  ([get_screenshot], [to_dict]) and of the placeholder screenshot
  constant, followed by the properties stated about them.

  Conventions of the embedding:
  - a Python [int] is a [Z]; a Python [bytes] is a [list byte];
  - a Python [str] is a [string] holding its UTF-8 encoding, so that
    [bytes.decode('utf-8')] is a validity check followed by the identity;
  - a Python [dict] with string keys is a [gmap string _];
  - [T | None] is [option T];
  - code that can raise or touch the disk lives in the monad [Py.io],
    which threads a read-only disk, logs every disk access and returns
    either a value or the class of the exception raised; every call of
    the library that can fail ([Path.exists], [open], [read], [decode])
    can raise there. *)

From Stdlib Require Import ZArith NArith Lia String Ascii List.
From Stdlib.Strings Require Import Byte.
From stdpp Require Import base option list gmap strings.

(* ===================================================================== *)
(** ** Python run-time model *)
(* ===================================================================== *)

Module Py.

(** Plain (JSON-like) values, the ones the serializers build. *)
#[warnings="-register-all"]
Inductive value : Type :=
| VNone
| VInt (z : Z)
| VStr (s : string)
| VList (l : list value)
| VDict (d : gmap string value).

Definition of_opt_int (o : option Z) : value :=
  match o with Some z => VInt z | None => VNone end.

Definition of_opt_str (o : option string) : value :=
  match o with Some s => VStr s | None => VNone end.

(** Truth value of a [str]: only the empty string is falsy. *)
Definition str_bool (s : string) : bool :=
  match s with EmptyString => false | String _ _ => true end.

(** Exception classes: the built-in ones a file read can meet, and the
    two classes the module declares. *)
Inductive exn_class : Type :=
| BaseException
| KeyboardInterrupt
| Exception
| OSError
| FileNotFoundError
| PermissionError
| IsADirectoryError
| NotADirectoryError
| ValueError
| UnicodeDecodeError
| AttributeError
| BrowserError
| URLNotAllowedError.

#[global] Instance exn_class_eq_dec : EqDecision exn_class.
Proof. solve_decision. Defined.

(** The direct base class of each class. *)
Definition base_class (c : exn_class) : option exn_class :=
  match c with
  | BaseException => None
  | KeyboardInterrupt => Some BaseException
  | Exception => Some BaseException
  | OSError => Some Exception
  | FileNotFoundError => Some OSError
  | PermissionError => Some OSError
  | IsADirectoryError => Some OSError
  | NotADirectoryError => Some OSError
  | ValueError => Some Exception
  | UnicodeDecodeError => Some ValueError
  | AttributeError => Some Exception
  | BrowserError => Some Exception          (* class BrowserError(Exception) *)
  | URLNotAllowedError => Some BrowserError (* class URLNotAllowedError(BrowserError) *)
  end.

Fixpoint issubclass_fuel (n : nat) (c d : exn_class) : bool :=
  if bool_decide (c = d) then true
  else match n with
       | O => false
       | S n' => match base_class c with
                 | Some b => issubclass_fuel n' b d
                 | None => false
                 end
       end.

(** The hierarchy above has depth 4. *)
Definition issubclass (c d : exn_class) : bool := issubclass_fuel 4 c d.

(** Errors of the operating system, as [stat], [open] and [read] report
    them. *)
Inductive os_error : Type :=
| EIO | ENOENT | EACCES | EISDIR | ENOTDIR | EBADF | ELOOP | ENAMETOOLONG.

Definition os_error_class (e : os_error) : exn_class :=
  match e with
  | ENOENT => FileNotFoundError
  | EACCES => PermissionError
  | EISDIR => IsADirectoryError
  | ENOTDIR => NotADirectoryError
  | EIO | EBADF | ELOOP | ENAMETOOLONG => OSError
  end.

(** The errors of [stat] that [pathlib] reads as "no such path"; it lets
    every other one through. *)
Definition ignore_error (e : os_error) : bool :=
  match e with
  | ENOENT | ENOTDIR | EBADF | ELOOP => true
  | _ => false
  end.

(** What a path names on disk. *)
Inductive node : Type :=
| RegularFile (content : list byte)
| Directory                                   (* open() raises IsADirectoryError *)
| Unopenable (e : os_error)                   (* exists, but open() raises *)
| Unreadable (e : os_error)                   (* open() succeeds, read() raises *)
| Unstatable (e : os_error).                  (* stat() fails: no search permission
                                                 on a directory above, name too long *)

(** Disk accesses, logged in the order they happen. *)
Inductive event : Type :=
| EvStat (p : string)
| EvOpen (p : string)
| EvRead (p : string)
| EvClose (p : string).

(** The path an access is about. *)
Definition event_path (ev : event) : string :=
  match ev with EvStat p | EvOpen p | EvRead p | EvClose p => p end.

Inductive outcome (A : Type) : Type :=
| Returns (a : A)
| Raises (e : exn_class).
Arguments Returns {A} a.
Arguments Raises {A} e.

(** Computations over a disk (a map from paths to nodes) with a log. *)
Definition io (A : Type) : Type :=
  gmap string node → list event → outcome A * list event.

Definition ret {A} (a : A) : io A := λ _ tr, (Returns a, tr).

Definition raise {A} (e : exn_class) : io A := λ _ tr, (Raises e, tr).

Definition bind {A B} (m : io A) (k : A → io B) : io B :=
  λ d tr, match m d tr with
          | (Returns a, tr') => k a d tr'
          | (Raises e, tr') => (Raises e, tr')
          end.

(** [try: body except cls: handler]. *)
Definition try_except {A} (body : io A) (cls : exn_class) (handler : io A) : io A :=
  λ d tr, match body d tr with
          | (Returns a, tr') => (Returns a, tr')
          | (Raises e, tr') =>
              if issubclass e cls then handler d tr' else (Raises e, tr')
          end.

(** [try: body finally: fin]. *)
Definition try_finally {A} (body : io A) (fin : io ()) : io A :=
  λ d tr, match body d tr with
          | (r, tr') => match fin d tr' with
                        | (Returns _, tr'') => (r, tr'')
                        | (Raises e, tr'') => (Raises e, tr'')
                        end
          end.

Definition log (ev : event) : io () := λ _ tr, (Returns (), tr ++ [ev]).

Definition disk_lookup (p : string) : io (option node) := λ d tr, (Returns (d !! p), tr).

(** [Path(p).exists()]: a [stat] of the path. An error of [stat] that
    [ignore_error] knows means that the path does not exist; any other is
    raised again. *)
Definition path_exists (p : string) : io bool :=
  bind (log (EvStat p)) (λ _,
  bind (disk_lookup p) (λ n,
  match n with
  | None => ret false
  | Some (Unstatable e) =>
      if ignore_error e then ret false else raise (os_error_class e)
  | Some _ => ret true
  end)).

(** An open binary file: its path, and what reading it will give. *)
Record file : Type := File { file_path : string; file_data : os_error + list byte }.

(** [open(p, 'rb')]. *)
Definition open_rb (p : string) : io file :=
  bind (log (EvOpen p)) (λ _,
  bind (disk_lookup p) (λ n,
  match n with
  | None => raise (os_error_class ENOENT)
  | Some Directory => raise (os_error_class EISDIR)
  | Some (Unopenable e) => raise (os_error_class e)
  | Some (Unstatable e) => raise (os_error_class e)
  | Some (Unreadable e) => ret (File p (inl e))
  | Some (RegularFile c) => ret (File p (inr c))
  end)).

(** [f.read()]. *)
Definition read (f : file) : io (list byte) :=
  bind (log (EvRead (file_path f))) (λ _,
  match file_data f with
  | inl e => raise (os_error_class e)
  | inr c => ret c
  end).

Definition close (f : file) : io () := log (EvClose (file_path f)).

(** [with open(p, 'rb') as f: body f]: the file is closed on every exit
    of the body. *)
Definition with_open_rb {A} (p : string) (body : file → io A) : io A :=
  bind (open_rb p) (λ f, try_finally (body f) (close f)).

End Py.

Notation "'let!' x ':=' m 'in' k" := (Py.bind m (λ x, k))
  (at level 10, x name, m at level 100, k at level 200, only parsing).

(* ===================================================================== *)
(** ** Bytes, UTF-8 and Base64 (the library calls of [get_screenshot]) *)
(* ===================================================================== *)

Module Bytes.

(** The byte with the given value, reduced modulo 256. *)
Definition of_N (n : N) : byte :=
  match Byte.of_N (n mod 256) with Some b => b | None => x00 end.

Definition of_string (s : string) : list byte := list_byte_of_string s.

Definition to_string (b : list byte) : string := string_of_list_byte b.

End Bytes.

Module Utf8.

Definition between (lo hi n : N) : bool := ((lo <=? n) && (n <=? hi))%N.

Definition cont (n : N) : bool := between 128 191 n.

(** Well-formed UTF-8 byte sequences (Unicode 15, table 3-7); bytes are
    given by their values. *)
Fixpoint valid (l : list N) : bool :=
  match l with
  | [] => true
  | b0 :: l1 =>
      if (b0 <? 128)%N then valid l1
      else match l1 with
      | [] => false
      | b1 :: l2 =>
          if between 194 223 b0 then cont b1 && valid l2
          else match l2 with
          | [] => false
          | b2 :: l3 =>
              if between 224 239 b0 then
                (if (b0 =? 224)%N then between 160 191 b1
                 else if (b0 =? 237)%N then between 128 159 b1
                 else cont b1)
                && cont b2 && valid l3
              else match l3 with
              | [] => false
              | b3 :: l4 =>
                  if between 240 244 b0 then
                    (if (b0 =? 240)%N then between 144 191 b1
                     else if (b0 =? 244)%N then between 128 143 b1
                     else cont b1)
                    && cont b2 && cont b3 && valid l4
                  else false
              end
          end
      end
  end.

(** [b.decode('utf-8')] (strict error handler). *)
Definition decode (b : list byte) : Py.io string :=
  if valid (Byte.to_N <$> b) then Py.ret (Bytes.to_string b)
  else Py.raise Py.UnicodeDecodeError.

End Utf8.

Module Base64.

(** The alphabet of RFC 4648, section 4. *)
Definition alphabet : string :=
  "ABCDEFGHIJKLMNOPQRSTUVWXYZabcdefghijklmnopqrstuvwxyz0123456789+/".

Definition pad : byte := "="%byte.

(** The character of a 6-bit group. *)
Definition enc6 (n : N) : byte :=
  match String.get (N.to_nat n) alphabet with
  | Some a => byte_of_ascii a
  | None => pad
  end.

(** The 6-bit group of a character of the alphabet. *)
Definition dec6 (c : byte) : option N :=
  let n := Byte.to_N c in
  if Utf8.between 65 90 n then Some (n - 65)%N        (* A-Z *)
  else if Utf8.between 97 122 n then Some (n - 71)%N  (* a-z *)
  else if Utf8.between 48 57 n then Some (n + 4)%N    (* 0-9 *)
  else if (n =? 43)%N then Some 62%N                  (* + *)
  else if (n =? 47)%N then Some 63%N                  (* / *)
  else None.

(** The characters Base64 text is made of: the alphabet and the padding. *)
Definition is_char (c : byte) : bool :=
  match dec6 c with Some _ => true | None => Byte.eqb c pad end.

(** The 24-bit group of three bytes. *)
Definition group24 (a b c : byte) : N :=
  (Byte.to_N a * 65536 + Byte.to_N b * 256 + Byte.to_N c)%N.

(** [base64.b64encode]: three bytes give four characters; one or two
    trailing bytes are padded with [=]. *)
Fixpoint b64encode (s : list byte) : list byte :=
  match s with
  | [] => []
  | [a] =>
      let x := group24 a x00 x00 in
      [enc6 (x / 262144); enc6 ((x / 4096) mod 64); pad; pad]
  | [a; b] =>
      let x := group24 a b x00 in
      [enc6 (x / 262144); enc6 ((x / 4096) mod 64); enc6 ((x / 64) mod 64); pad]
  | a :: b :: c :: rest =>
      let x := group24 a b c in
      enc6 (x / 262144) :: enc6 ((x / 4096) mod 64)
        :: enc6 ((x / 64) mod 64) :: enc6 (x mod 64) :: b64encode rest
  end%N.

Definition is_nil {A} (l : list A) : bool :=
  match l with [] => true | _ :: _ => false end.

Definition join24 (s0 s1 s2 s3 : N) : N :=
  (s0 * 262144 + s1 * 4096 + s2 * 64 + s3)%N.

(** Decoding of padded Base64; anything outside the alphabet, a length
    that is not a multiple of four or padding elsewhere than at the end is
    refused (this is [base64.b64decode] with [validate=True]). *)
Fixpoint b64decode (s : list byte) : option (list byte) :=
  match s with
  | [] => Some []
  | c0 :: c1 :: c2 :: c3 :: rest =>
      match dec6 c0, dec6 c1 with
      | Some s0, Some s1 =>
          match dec6 c2, dec6 c3 with
          | Some s2, Some s3 =>
              let x := join24 s0 s1 s2 s3 in
              tl ← b64decode rest;
              Some (Bytes.of_N (x / 65536) :: Bytes.of_N (x / 256) :: Bytes.of_N x :: tl)
          | Some s2, None =>
              let x := join24 s0 s1 s2 0 in
              if Byte.eqb c3 pad && is_nil rest
              then Some [Bytes.of_N (x / 65536); Bytes.of_N (x / 256)]
              else None
          | None, _ =>
              let x := join24 s0 s1 0 0 in
              if Byte.eqb c2 pad && Byte.eqb c3 pad && is_nil rest
              then Some [Bytes.of_N (x / 65536)]
              else None
          end
      | _, _ => None
      end
  | _ => None
  end%N.

End Base64.

(* ===================================================================== *)
(** ** PNG images (what the placeholder constant has to decode to) *)
(* ===================================================================== *)

(** Checksums of the PNG and zlib containers; bytes are given by value. *)
Module Checksum.

(** CRC-32 (ISO 3309, reflected polynomial 0xEDB88320), bit by bit. *)
Fixpoint crc_shift (k : nat) (c : N) : N :=
  match k with
  | O => c
  | S k' =>
      crc_shift k' (if N.odd c then N.lxor (N.shiftr c 1) 0xEDB88320
                    else N.shiftr c 1)
  end.

Definition crc_update (c b : N) : N := crc_shift 8 (N.lxor c b).

Definition crc32 (l : list N) : N :=
  N.lxor (fold_left crc_update l 0xFFFFFFFF%N) 0xFFFFFFFF.

(** Adler-32 (RFC 1950): the pair (a, b) of running sums modulo 65521. *)
Definition adler_update (s : N * N) (x : N) : N * N :=
  let a := ((fst s + x) mod 65521)%N in
  (a, ((snd s + a) mod 65521)%N).

Definition adler32 (l : list N) : N :=
  let s := fold_left adler_update l (1%N, 0%N) in
  (snd s * 65536 + fst s)%N.

End Checksum.

(** DEFLATE streams (RFC 1951) and their zlib wrapper (RFC 1950). *)
Module Inflate.

(** The bits of a byte, least significant first. *)
Fixpoint bits_of_byte (k : nat) (n : N) : list bool :=
  match k with
  | O => []
  | S k' => N.odd n :: bits_of_byte k' (N.div2 n)
  end.

Definition bits_of_bytes (l : list N) : list bool :=
  flat_map (bits_of_byte 8) l.

(** [k] bits read as a number, least significant bit first. *)
Fixpoint take_bits (k : nat) (bs : list bool) : option (N * list bool) :=
  match k with
  | O => Some (0%N, bs)
  | S k' =>
      match bs with
      | [] => None
      | b :: bs' =>
          '(v, r) ← take_bits k' bs';
          Some ((N.b2n b + 2 * v)%N, r)
      end
  end.

(** Drop the bits left in the current byte (the stream holds whole
    bytes, so what is left of it tells the position). *)
Definition align (bs : list bool) : list bool :=
  drop (length bs mod 8) bs.

(** The symbols whose code has length [len], in increasing order. *)
Definition symbols_of_length (lens : list N) (len : N) : list N :=
  fst <$> filter (λ p, snd p = len) (zip (N.of_nat <$> seq 0 (length lens)) lens).

(** Decoding of one symbol of a canonical Huffman code given by its code
    lengths: the code is read bit by bit, most significant bit first;
    [first] is the first code of length [len]. *)
Fixpoint huff_from (lens : list N) (fuel : nat) (len code first : N)
    (bs : list bool) : option (N * list bool) :=
  match fuel with
  | O => None
  | S fuel' =>
      match bs with
      | [] => None
      | b :: bs' =>
          let code := (code + N.b2n b)%N in
          let syms := symbols_of_length lens len in
          let count := N.of_nat (length syms) in
          if (code <? first)%N then None
          else if (code <? first + count)%N then
            s ← syms !! N.to_nat (code - first);
            Some (s, bs')
          else
            huff_from lens fuel' (len + 1) (2 * code) (2 * (first + count)) bs'
      end
  end.

(** Codes have at most 15 bits. *)
Definition huff (lens : list N) (bs : list bool) : option (N * list bool) :=
  huff_from lens 15 1 0 0 bs.

(** Base values and extra bits of the length symbols 257..285 and of the
    distance symbols 0..29 (RFC 1951, 3.2.5). *)
Definition length_base : list N :=
  [3; 4; 5; 6; 7; 8; 9; 10; 11; 13; 15; 17; 19; 23; 27; 31; 35; 43; 51; 59;
   67; 83; 99; 115; 131; 163; 195; 227; 258]%N.

Definition length_extra : list nat :=
  [0; 0; 0; 0; 0; 0; 0; 0; 1; 1; 1; 1; 2; 2; 2; 2; 3; 3; 3; 3; 4; 4; 4; 4;
   5; 5; 5; 5; 0].

Definition dist_base : list N :=
  [1; 2; 3; 4; 5; 7; 9; 13; 17; 25; 33; 49; 65; 97; 129; 193; 257; 385; 513;
   769; 1025; 1537; 2049; 3073; 4097; 6145; 8193; 12289; 16385; 24577]%N.

Definition dist_extra : list nat :=
  [0; 0; 0; 0; 1; 1; 2; 2; 3; 3; 4; 4; 5; 5; 6; 6; 7; 7; 8; 8; 9; 9; 10; 10;
   11; 11; 12; 12; 13; 13].

(** Code lengths of the fixed Huffman codes (RFC 1951, 3.2.6). *)
Definition fixed_litlen : list N :=
  replicate 144 8%N ++ replicate 112 9%N ++ replicate 24 7%N ++ replicate 8 8%N.

Definition fixed_dist : list N := replicate 30 5%N.

(** Copy [len] bytes from [dist] bytes back; the output is kept in
    reverse, latest byte first. *)
Fixpoint copy_back (len : nat) (dist : nat) (out : list N) : option (list N) :=
  match len with
  | O => Some out
  | S len' =>
      match dist with
      | O => None
      | S d => x ← out !! d; copy_back len' dist (x :: out)
      end
  end.

(** The symbols of one compressed block, up to its end-of-block symbol. *)
Fixpoint codes (fuel : nat) (litlen dist : list N) (bs : list bool)
    (out : list N) : option (list bool * list N) :=
  match fuel with
  | O => None
  | S fuel' =>
      '(sym, bs1) ← huff litlen bs;
      if (sym <? 256)%N then codes fuel' litlen dist bs1 (sym :: out)
      else if (sym =? 256)%N then Some (bs1, out)
      else
        let i := N.to_nat (sym - 257) in
        lb ← length_base !! i;
        le ← length_extra !! i;
        '(lx, bs2) ← take_bits le bs1;
        '(dsym, bs3) ← huff dist bs2;
        db ← dist_base !! N.to_nat dsym;
        de ← dist_extra !! N.to_nat dsym;
        '(dx, bs4) ← take_bits de bs3;
        out' ← copy_back (N.to_nat (lb + lx)) (N.to_nat (db + dx)) out;
        codes fuel' litlen dist bs4 out'
  end.

(** [n] whole bytes of a stored block. *)
Fixpoint stored_bytes (n : nat) (bs : list bool) (out : list N)
    : option (list bool * list N) :=
  match n with
  | O => Some (bs, out)
  | S n' => '(x, bs') ← take_bits 8 bs; stored_bytes n' bs' (x :: out)
  end.

Definition stored (bs : list bool) (out : list N) : option (list bool * list N) :=
  '(len, bs1) ← take_bits 16 (align bs);
  '(nlen, bs2) ← take_bits 16 bs1;
  if (N.lxor len nlen =? 65535)%N then
    if (N.of_nat (length bs2) <? 8 * len)%N then None
    else stored_bytes (N.to_nat len) bs2 out
  else None.

(** The blocks of a stream, up to the one marked final. Stored blocks and
    blocks compressed with the fixed codes are decoded; a block with
    dynamic codes (type 2) is refused, like the reserved type 3. *)
Fixpoint blocks (fuel : nat) (bs : list bool) (out : list N)
    : option (list bool * list N) :=
  match fuel with
  | O => None
  | S fuel' =>
      '(final, bs1) ← take_bits 1 bs;
      '(type, bs2) ← take_bits 2 bs1;
      '(bs3, out') ←
        (if (type =? 0)%N then stored bs2 out
         else if (type =? 1)%N then codes (length bs2) fixed_litlen fixed_dist bs2 out
         else None);
      if (final =? 1)%N then Some (bs3, out') else blocks fuel' bs3 out'
  end.

(** Every block takes at least three bits. *)
Definition inflate (bs : list bool) : option (list bool * list N) :=
  '(rest, out) ← blocks (length bs) bs [];
  Some (rest, rev out).

(** A zlib stream: the two header bytes (method 8, window at most 32K,
    check bits, no preset dictionary), the DEFLATE data and the Adler-32
    of the decompressed data, big-endian; nothing may follow. *)
Definition decompress (l : list N) : option (list N) :=
  match l with
  | cmf :: flg :: data =>
      if ((N.land cmf 15 =? 8) && (N.shiftr cmf 4 <=? 7)
          && ((cmf * 256 + flg) mod 31 =? 0) && negb (N.testbit flg 5))%N
      then
        '(rest, out) ← inflate (bits_of_bytes data);
        '(a3, r3) ← take_bits 8 (align rest);
        '(a2, r2) ← take_bits 8 r3;
        '(a1, r1) ← take_bits 8 r2;
        '(a0, r0) ← take_bits 8 r1;
        if Base64.is_nil r0
           && (Checksum.adler32 out =? ((a3 * 256 + a2) * 256 + a1) * 256 + a0)%N
        then Some out else None
      else None
  | _ => None
  end.

End Inflate.

(** PNG data streams (ISO/IEC 15948), restricted to what a truecolour
  screenshot uses: 8 bits per sample, no interlacing. *)
Module Png.

Record chunk : Type := Chunk { chunk_type : list N; chunk_data : list N }.

(** A decoded image: its rows, each a list of pixels, each a list of
    samples. *)
Record image : Type := Image {
  width : N;
  height : N;
  colour_type : N;
  rows : list (list (list N))
}.

Definition signature : list N := [137; 80; 78; 71; 13; 10; 26; 10]%N.

Definition IHDR : list N := [73; 72; 68; 82]%N.
Definition PLTE : list N := [80; 76; 84; 69]%N.
Definition IDAT : list N := [73; 68; 65; 84]%N.
Definition IEND : list N := [73; 69; 78; 68]%N.

Definition be32 (a b c d : N) : N := (((a * 256 + b) * 256 + c) * 256 + d)%N.

(** The chunks of a stream: length, type, data and the CRC-32 of type and
    data, which has to match. *)
Fixpoint chunks (fuel : nat) (l : list N) : option (list chunk) :=
  match fuel with
  | O => None
  | S fuel' =>
      match l with
      | [] => Some []
      | n3 :: n2 :: n1 :: n0 :: t0 :: t1 :: t2 :: t3 :: rest =>
          let n := be32 n3 n2 n1 n0 in
          if (N.of_nat (length rest) <? n + 4)%N then None
          else
            let ty := [t0; t1; t2; t3] in
            let data := take (N.to_nat n) rest in
            match drop (N.to_nat n) rest with
            | c3 :: c2 :: c1 :: c0 :: rest' =>
                if (Checksum.crc32 (ty ++ data) =? be32 c3 c2 c1 c0)%N
                then cs ← chunks fuel' rest'; Some (Chunk ty data :: cs)
                else None
            | _ => None
            end
      | _ => None
      end
  end.

Definition is_type (ty : list N) (c : chunk) : bool :=
  bool_decide (chunk_type c = ty).

(** An ancillary chunk has bit 5 of the first byte of its type set; a
    decoder may skip it. *)
Definition ancillary (c : chunk) : bool :=
  match chunk_type c with
  | t0 :: _ => N.testbit t0 5
  | [] => false
  end.

(** Samples per pixel of a colour type (palette images are left out). *)
Definition samples (ct : N) : option nat :=
  if (ct =? 0)%N then Some 1
  else if (ct =? 2)%N then Some 3
  else if (ct =? 4)%N then Some 2
  else if (ct =? 6)%N then Some 4
  else None.

Definition paeth (a b c : N) : N :=
  let p := (Z.of_N a + Z.of_N b - Z.of_N c)%Z in
  let pa := Z.abs (p - Z.of_N a) in
  let pb := Z.abs (p - Z.of_N b) in
  let pc := Z.abs (p - Z.of_N c) in
  if ((pa <=? pb) && (pa <=? pc))%Z then a
  else if (pb <=? pc)%Z then b
  else c.

(** The predictor of a filter type from the bytes to the left ([a]),
    above ([b]) and above left ([c]). *)
Definition predictor (ft a b c : N) : option N :=
  if (ft =? 0)%N then Some 0%N
  else if (ft =? 1)%N then Some a
  else if (ft =? 2)%N then Some b
  else if (ft =? 3)%N then Some ((a + b) / 2)%N
  else if (ft =? 4)%N then Some (paeth a b c)
  else None.

(** Reconstruction of one scanline, left to right. [done] and [pdone]
    hold the bytes already passed of this line and of the line above,
    latest first; [bpp] is the number of bytes per pixel. *)
Fixpoint recon (ft : N) (bpp : nat) (raw prev done pdone : list N)
    : option (list N) :=
  match raw with
  | [] => Some (rev done)
  | x :: raw' =>
      let a := nth (bpp - 1) done 0%N in
      let b := hd 0%N prev in
      let c := nth (bpp - 1) pdone 0%N in
      pr ← predictor ft a b c;
      recon ft bpp raw' (tl prev) (((x + pr) mod 256)%N :: done) (b :: pdone)
  end.

(** The scanlines of the decompressed data: a filter-type byte, then
    [stride] bytes. *)
Fixpoint scanlines (h : nat) (bpp stride : nat) (raw prev : list N)
    : option (list (list N)) :=
  match h with
  | O => if Base64.is_nil raw then Some [] else None
  | S h' =>
      match raw with
      | [] => None
      | ft :: raw' =>
          if (length raw' <? stride)%nat then None
          else
            line ← recon ft bpp (take stride raw') prev [] [];
            ls ← scanlines h' bpp stride (drop stride raw') line;
            Some (line :: ls)
      end
  end.

(** The pixels of a scanline. *)
Fixpoint pixels (n : nat) (bpp : nat) (line : list N) : list (list N) :=
  match n with
  | O => []
  | S n' => take bpp line :: pixels n' bpp (drop bpp line)
  end.

(** The longest prefix whose elements satisfy [f], and what follows it. *)
Fixpoint span {A} (f : A → bool) (l : list A) : list A * list A :=
  match l with
  | [] => ([], [])
  | x :: l' =>
      if f x then let '(a, b) := span f l' in (x :: a, b) else ([], l)
  end.

(** Chunks after the header: ancillary chunks (and a palette), then the
    image data in consecutive [IDAT] chunks, then ancillary chunks, then
    an empty [IEND]. *)
Definition image_data (cs : list chunk) : option (list N) :=
  let '(pre, rest) := span (λ c, negb (is_type IDAT c)) cs in
  let '(idats, post) := span (is_type IDAT) rest in
  if Base64.is_nil idats then None
  else if negb (forallb (λ c, ancillary c || is_type PLTE c) pre) then None
  else
    match rev post with
    | last :: post' =>
        if is_type IEND last && Base64.is_nil (chunk_data last)
           && forallb ancillary post'
        then Some (flat_map chunk_data idats)
        else None
    | [] => None
    end.

Definition decode (l : list N) : option image :=
  if bool_decide (take 8 l = signature) then
    cs ← chunks (length l) (drop 8 l);
    match cs with
    | Chunk ty [w3; w2; w1; w0; h3; h2; h1; h0; depth; ct; comp; filt; lace]
        :: cs' =>
        let w := be32 w3 w2 w1 w0 in
        let h := be32 h3 h2 h1 h0 in
        if bool_decide (ty = IHDR)
           && ((0 <? w) && (0 <? h) && (depth =? 8) && (comp =? 0)
               && (filt =? 0) && (lace =? 0))%N
        then
          bpp ← samples ct;
          data ← image_data cs';
          raw ← Inflate.decompress data;
          let stride := (N.to_nat w * bpp)%nat in
          ls ← scanlines (N.to_nat h) bpp stride raw [];
          Some (Image w h ct (pixels (N.to_nat w) bpp <$> ls))
        else None
    | _ => None
    end
  else None.

Definition white : list N := [255; 255; 255]%N.

(** A truecolour image all of whose pixels are white. *)
Definition all_white (im : image) : bool :=
  (colour_type im =? 2)%N
  && forallb (forallb (λ px, bool_decide (px = white))) (rows im).

End Png.

(* ===================================================================== *)
(** ** The module: constant, records and methods *)
(* ===================================================================== *)

(** Known placeholder image data for about:blank pages - a 4x4 white PNG. *)
Definition PLACEHOLDER_4PX_SCREENSHOT : string :=
  "iVBORw0KGgoAAAANSUhEUgAAAAQAAAAECAIAAAAmkwkpAAAAFElEQVR4nGP8//8/AwwwMSAB3BwAlm4DBfIlvvkAAAAASUVORK5CYII=".

(** [class TabInfo(BaseModel)]: information about a browser tab. *)
Module TabInfo.

Record t : Type := Build {
  page_id : Z;
  url : string;
  title : string;
  parent_page_id : option Z   (* int | None = None *)
}.

(** [TabInfo(page_id=.., url=.., title=.., parent_page_id=..)]; the last
    argument may be left out. *)
Definition __init__ (page_id : Z) (url title : string)
    (parent_page_id : option (option Z)) : t :=
  Build page_id url title (default None parent_page_id).

(** [tab.model_dump()]: the fields as a plain dict. *)
Definition model_dump (self : t) : gmap string Py.value :=
  <["parent_page_id" := Py.of_opt_int (parent_page_id self)]>
    (<["title" := Py.VStr (title self)]>
       (<["url" := Py.VStr (url self)]>
          (<["page_id" := Py.VInt (page_id self)]> ∅))).

End TabInfo.

(** [class PageInfo(BaseModel)]: page size and scroll information. *)
Module PageInfo.

Record t : Type := Build {
  (* Current viewport dimensions *)
  viewport_width : Z;
  viewport_height : Z;
  (* Total page dimensions *)
  page_width : Z;
  page_height : Z;
  (* Current scroll position *)
  scroll_x : Z;
  scroll_y : Z;
  (* Calculated scroll information *)
  pixels_above : Z;
  pixels_below : Z;
  pixels_left : Z;
  pixels_right : Z
}.

(** [PageInfo(viewport_width=.., ...)]: every field is a required [int]
    and carries no further constraint. *)
Definition __init__ (viewport_width viewport_height page_width page_height
    scroll_x scroll_y pixels_above pixels_below pixels_left pixels_right : Z) : t :=
  Build viewport_width viewport_height page_width page_height
    scroll_x scroll_y pixels_above pixels_below pixels_left pixels_right.

(** All ten fields are at least 0. *)
Definition nonneg (p : t) : Prop :=
  (0 ≤ viewport_width p ∧ 0 ≤ viewport_height p ∧ 0 ≤ page_width p
   ∧ 0 ≤ page_height p ∧ 0 ≤ scroll_x p ∧ 0 ≤ scroll_y p
   ∧ 0 ≤ pixels_above p ∧ 0 ≤ pixels_below p ∧ 0 ≤ pixels_left p
   ∧ 0 ≤ pixels_right p)%Z.

End PageInfo.

(** [@dataclass class BrowserStateSummary(DOMState)]: the summary of the
  browser's current state. [DOMState] is declared in another module; it
  provides the first two fields, whose types stay abstract here. *)
Module BrowserStateSummary.
Section DOMState.
Context {DOMElementNode SelectorMap : Type}.

Record t : Type := Build {
  (* provided by DOMState *)
  element_tree : DOMElementNode;
  selector_map : SelectorMap;
  url : string;
  title : string;
  tabs : list TabInfo.t;
  screenshot : option string;          (* str | None = None *)
  page_info : option PageInfo.t;       (* PageInfo | None = None *)
  (* legacy fields *)
  pixels_above : Z;                    (* = 0 *)
  pixels_below : Z;                    (* = 0 *)
  browser_errors : list string;        (* = field(default_factory=list) *)
  is_pdf_viewer : bool;                (* = False *)
  loading_status : option string       (* str | None = None *)
}.

(** The generated [__init__]: every argument after [tabs] may be left
    out ([None] here) and then takes the default of its field. *)
Definition __init__ (element_tree : DOMElementNode) (selector_map : SelectorMap)
    (url title : string) (tabs : list TabInfo.t)
    (screenshot : option (option string))
    (page_info : option (option PageInfo.t))
    (pixels_above pixels_below : option Z)
    (browser_errors : option (list string))
    (is_pdf_viewer : option bool)
    (loading_status : option (option string)) : t :=
  Build element_tree selector_map url title tabs
    (default None screenshot)
    (default None page_info)
    (default 0%Z pixels_above)
    (default 0%Z pixels_below)
    (default [] browser_errors)
    (default false is_pdf_viewer)
    (default None loading_status).

End DOMState.
Arguments t : clear implicits.
End BrowserStateSummary.

(** The interface of [DOMHistoryElement], which is declared in another
  module: its [to_dict] method and its truth value. *)
Class HistoryElement (E : Type) : Type := {
el_to_dict : E → gmap string Py.value;
el_bool : E → bool
}.

(** [@dataclass class BrowserStateHistory]: the summary of the browser's
  state at a past point in time. *)
Module BrowserStateHistory.
Section DOMHistoryElement.
Context {DOMHistoryElement : Type} `{!HistoryElement DOMHistoryElement}.

Record t : Type := Build {
  url : string;
  title : string;
  tabs : list TabInfo.t;
  interacted_element : list (option DOMHistoryElement);
  screenshot_path : option string      (* str | None = None *)
}.

Definition __init__ (url title : string) (tabs : list TabInfo.t)
    (interacted_element : list (option DOMHistoryElement))
    (screenshot_path : option (option string)) : t :=
  Build url title tabs interacted_element (default None screenshot_path).

(** Load screenshot from disk and return as base64 string. *)
Definition get_screenshot (self : t) : Py.io (option string) :=
  match screenshot_path self with
  | None => Py.ret None                         (* not None *)
  | Some p =>
      if negb (Py.str_bool p) then Py.ret None  (* not '' *)
      else
        let path_obj := p in
        let! ex := Py.path_exists path_obj in
        if negb ex then Py.ret None
        else
          Py.try_except
            (let! screenshot_data := Py.with_open_rb path_obj Py.read in
             let! s := Utf8.decode (Base64.b64encode screenshot_data) in
             Py.ret (Some s))
            Py.Exception
            (Py.ret None)
  end.

(** [el.to_dict() if el else None]. *)
Definition dump_element (el : option DOMHistoryElement) : Py.value :=
  match el with
  | Some e => if el_bool e then Py.VDict (el_to_dict e) else Py.VNone
  | None => Py.VNone
  end.

Definition to_dict (self : t) : gmap string Py.value :=
  let data := ∅ in
  let data := <["tabs" := Py.VList (Py.VDict ∘ TabInfo.model_dump <$> tabs self)]> data in
  let data := <["screenshot_path" := Py.of_opt_str (screenshot_path self)]> data in
  let data := <["interacted_element" := Py.VList (dump_element <$> interacted_element self)]> data in
  let data := <["url" := Py.VStr (url self)]> data in
  let data := <["title" := Py.VStr (title self)]> data in
  data.

End DOMHistoryElement.
Arguments t : clear implicits.
End BrowserStateHistory.

(** The objects of the two dataclasses, held by reference in a store, and
    the operations the module offers on them: the two constructors and the
    two methods. Neither method assigns to an attribute. *)
Module Store.
Section Objects.
Context {DOMElementNode SelectorMap DOMHistoryElement : Type}.
Context `{!HistoryElement DOMHistoryElement}.

Inductive obj : Type :=
| Summary (s : BrowserStateSummary.t DOMElementNode SelectorMap)
| History (h : BrowserStateHistory.t DOMHistoryElement).

Inductive op : Type :=
| NewSummary (s : BrowserStateSummary.t DOMElementNode SelectorMap)
| NewHistory (h : BrowserStateHistory.t DOMHistoryElement)
| GetScreenshot (l : nat)     (* o.get_screenshot() *)
| ToDict (l : nat).           (* o.to_dict() *)

Inductive result : Type :=
| Ref (l : nat)
| Str (s : option string)
| Dict (d : gmap string Py.value).

(** One operation: the store it leaves, and the computation of its result.
    A constructor allocates a fresh reference; a method of the history
    record called on another object is an [AttributeError]. *)
Definition step (o : op) (σ : gmap nat obj) : gmap nat obj * Py.io result :=
  match o with
  | NewSummary s =>
      let l := fresh (dom σ) in (<[l := Summary s]> σ, Py.ret (Ref l))
  | NewHistory h =>
      let l := fresh (dom σ) in (<[l := History h]> σ, Py.ret (Ref l))
  | GetScreenshot l =>
      (σ, match σ !! l with
          | Some (History h) =>
              let! r := BrowserStateHistory.get_screenshot h in Py.ret (Str r)
          | _ => Py.raise Py.AttributeError
          end)
  | ToDict l =>
      (σ, match σ !! l with
          | Some (History h) => Py.ret (Dict (BrowserStateHistory.to_dict h))
          | _ => Py.raise Py.AttributeError
          end)
  end.

(** The store after a sequence of operations. *)
Fixpoint run (os : list op) (σ : gmap nat obj) : gmap nat obj :=
  match os with
  | [] => σ
  | o :: os' => run os' (fst (step o σ))
  end.

End Objects.
End Store.

(** A small descriptor (tag name and XPath) implementing the interface of
    [DOMHistoryElement], to run the methods on concrete entries. *)
Module Sample.

Record element : Type := Element { tag_name : string; xpath : string }.

#[global] Instance element_history : HistoryElement element := {|
  el_to_dict e :=
    <["xpath" := Py.VStr (xpath e)]> (<["tag_name" := Py.VStr (tag_name e)]> ∅);
  el_bool _ := true
|}.

(** A descriptor that is a container (a class with [__len__]): it is
    falsy when it holds no step. *)
Record branch : Type := Branch { steps : list string }.

#[global] Instance branch_history : HistoryElement branch := {|
  el_to_dict b := <["steps" := Py.VList (Py.VStr <$> steps b)]> ∅;
  el_bool b := negb (Base64.is_nil (steps b))
|}.

(** A small file and a disk holding it. *)
Definition file : list byte := Bytes.of_string "PNG".

Definition disk : gmap string Py.node :=
  {["shots/step_1.png" := Py.RegularFile file]}.

End Sample.

(** The reference property of [parent_page_id]: every parent named by a
    tab of the list is the id of a tab of the list. *)
Definition parents_resolve (tabs : list TabInfo.t) : Prop :=
  ∀ t, t ∈ tabs → ∀ p, TabInfo.parent_page_id t = Some p →
  ∃ t', t' ∈ tabs ∧ TabInfo.page_id t' = p.

(* ===================================================================== *)
(** ** Properties *)
(* ===================================================================== *)

(** *** Test vectors of RFC 4648 *)

Example b64encode_foobar :
  Base64.b64encode (Bytes.of_string "foobar") = Bytes.of_string "Zm9vYmFy".
Proof. reflexivity. Qed.

Example b64encode_fooba :
  Base64.b64encode (Bytes.of_string "fooba") = Bytes.of_string "Zm9vYmE=".
Proof. reflexivity. Qed.

Example b64encode_foob :
  Base64.b64encode (Bytes.of_string "foob") = Bytes.of_string "Zm9vYg==".
Proof. reflexivity. Qed.

Example b64decode_foob :
  Base64.b64decode (Bytes.of_string "Zm9vYg==") = Some (Bytes.of_string "foob").
Proof. reflexivity. Qed.

Example b64decode_fooba :
  Base64.b64decode (Bytes.of_string "Zm9vYmE=") = Some (Bytes.of_string "fooba").
Proof. reflexivity. Qed.

(** *** Base64 and UTF-8 *)

(** Lists taken three elements at a time, as the encoder takes them. *)
Lemma list_ind3 {A} (P : list A → Prop) :
  P [] → (∀ a, P [a]) → (∀ a b, P [a; b]) →
  (∀ a b c l, P l → P (a :: b :: c :: l)) → ∀ l, P l.
Proof.
  intros H0 H1 H2 H3 l.
  assert (H : P l ∧ (∀ a, P (a :: l)) ∧ (∀ a b, P (a :: b :: l))).
  { induction l as [|x l (IH0 & IH1 & IH2)]; [by auto|].
    split; [apply IH1|]. split; [intros a; apply IH2|].
    intros a b. by apply H3. }
  apply H.
Qed.

Lemma enc6_small (n : N) : (n < 64)%N →
  Base64.dec6 (Base64.enc6 n) = Some n ∧ (Byte.to_N (Base64.enc6 n) < 128)%N.
Proof.
  intros Hn.
  assert (Hk : ∃ k : nat, k < 64 ∧ n = N.of_nat k).
  { exists (N.to_nat n). lia. }
  destruct Hk as (k & Hk & ->).
  do 64 (destruct k as [|k]; [by vm_compute|]). lia.
Qed.

Lemma enc6_ascii (n : N) : (Byte.to_N (Base64.enc6 n) < 128)%N.
Proof.
  destruct (decide (n < 64)%N) as [Hn|Hn]; [by apply enc6_small|].
  unfold Base64.enc6.
  replace (N.to_nat n) with (64 + (N.to_nat n - 64)) by lia.
  generalize (N.to_nat n - 64). intros k. by destruct k; vm_compute.
Qed.

Lemma b64encode_ascii (l : list byte) :
  Forall (λ c, (c < 128)%N) (Byte.to_N <$> Base64.b64encode l).
Proof.
  induction l as [|a|a b|a b c l IH] using list_ind3; cbn [Base64.b64encode fmap list_fmap].
  - constructor.
  - repeat constructor; try apply enc6_ascii; by vm_compute.
  - repeat constructor; try apply enc6_ascii; by vm_compute.
  - repeat (constructor; [apply enc6_ascii|]). exact IH.
Qed.

Lemma valid_ascii (l : list N) : Forall (λ c, (c < 128)%N) l → Utf8.valid l = true.
Proof.
  induction 1 as [|c l Hc _ IH]; [done|].
  cbn [Utf8.valid]. by apply N.ltb_lt in Hc as ->.
Qed.

Lemma decode_b64encode (B : list byte) d tr :
  Utf8.decode (Base64.b64encode B) d tr
  = (Py.Returns (Bytes.to_string (Base64.b64encode B)), tr).
Proof.
  unfold Utf8.decode. by rewrite valid_ascii by apply b64encode_ascii.
Qed.

Ltac divmod := zify; Z.to_euclidean_division_equations; lia.

Lemma div_4096 (x : N) : (x / 4096 = x / 64 / 64)%N.
Proof. by rewrite N.Div0.div_div. Qed.

Lemma div_262144 (x : N) : (x / 262144 = x / 64 / 64 / 64)%N.
Proof. by rewrite !N.Div0.div_div. Qed.

Lemma of_N_byte (n : N) (b : byte) : (n mod 256 = Byte.to_N b)%N → Bytes.of_N n = b.
Proof. unfold Bytes.of_N. intros ->. by rewrite Byte.of_to_N. Qed.

Lemma group24_bound (a b c : byte) : (Base64.group24 a b c < 16777216)%N.
Proof.
  unfold Base64.group24.
  pose proof (Byte.to_N_bounded a). pose proof (Byte.to_N_bounded b).
  pose proof (Byte.to_N_bounded c). lia.
Qed.

(** The four 6-bit groups of a 24-bit group are characters of the alphabet
    and put the group together again. *)
Lemma sextets (x : N) : (x < 16777216)%N →
  (x / 262144 < 64 ∧ (x / 4096) mod 64 < 64 ∧ (x / 64) mod 64 < 64 ∧ x mod 64 < 64
   ∧ Base64.join24 (x / 262144) ((x / 4096) mod 64) ((x / 64) mod 64) (x mod 64) = x
   ∧ Base64.join24 (x / 262144) ((x / 4096) mod 64) ((x / 64) mod 64) 0 = x / 64 * 64
   ∧ Base64.join24 (x / 262144) ((x / 4096) mod 64) 0 0 = x / 4096 * 4096)%N.
Proof.
  intros Hx. unfold Base64.join24. rewrite div_262144, !div_4096.
  repeat split; divmod.
Qed.

Lemma group24_bytes (a b c : byte) :
  let x := Base64.group24 a b c in
  Bytes.of_N (x / 65536) = a ∧ Bytes.of_N (x / 256) = b ∧ Bytes.of_N x = c
  ∧ Bytes.of_N (x / 64 * 64 / 65536) = a ∧ Bytes.of_N (x / 64 * 64 / 256) = b
  ∧ Bytes.of_N (x / 4096 * 4096 / 65536) = a.
Proof.
  intros x. subst x. unfold Base64.group24.
  pose proof (Byte.to_N_bounded a). pose proof (Byte.to_N_bounded b).
  pose proof (Byte.to_N_bounded c).
  repeat split; apply of_N_byte; divmod.
Qed.

Lemma b64decode_group (a b c : byte) (rest : list byte) :
  let x := Base64.group24 a b c in
  Base64.b64decode
    (Base64.enc6 (x / 262144) :: Base64.enc6 ((x / 4096) mod 64)
       :: Base64.enc6 ((x / 64) mod 64) :: Base64.enc6 (x mod 64) :: rest)
  = tl ← Base64.b64decode rest; Some (a :: b :: c :: tl).
Proof.
  intros x.
  destruct (sextets x (group24_bound a b c)) as (H0 & H1 & H2 & H3 & Hj & _).
  destruct (group24_bytes a b c) as (Ha & Hb & Hc & _). fold x in Ha, Hb, Hc.
  cbn [Base64.b64decode].
  rewrite (proj1 (enc6_small _ H0)), (proj1 (enc6_small _ H1)),
    (proj1 (enc6_small _ H2)), (proj1 (enc6_small _ H3)).
  by rewrite Hj, Ha, Hb, Hc.
Qed.

Lemma b64decode_b64encode (l : list byte) :
  Base64.b64decode (Base64.b64encode l) = Some l.
Proof.
  induction l as [|a|a b|a b c l IH] using list_ind3.
  - done.
  - cbn [Base64.b64encode]. set (x := Base64.group24 a x00 x00).
    destruct (sextets x (group24_bound _ _ _)) as (H0 & H1 & _ & _ & _ & _ & Hj).
    destruct (group24_bytes a x00 x00) as (_ & _ & _ & _ & _ & Ha). fold x in Ha.
    cbn [Base64.b64decode].
    rewrite (proj1 (enc6_small _ H0)), (proj1 (enc6_small _ H1)).
    change (Base64.dec6 Base64.pad) with (@None N). cbn match.
    change (Byte.eqb Base64.pad Base64.pad) with true. cbn [andb Base64.is_nil].
    by rewrite Hj, Ha.
  - cbn [Base64.b64encode]. set (x := Base64.group24 a b x00).
    destruct (sextets x (group24_bound _ _ _)) as (H0 & H1 & H2 & _ & _ & Hj & _).
    destruct (group24_bytes a b x00) as (_ & _ & _ & Ha & Hb & _). fold x in Ha, Hb.
    cbn [Base64.b64decode].
    rewrite (proj1 (enc6_small _ H0)), (proj1 (enc6_small _ H1)),
      (proj1 (enc6_small _ H2)).
    change (Base64.dec6 Base64.pad) with (@None N). cbn match.
    change (Byte.eqb Base64.pad Base64.pad) with true. cbn [andb Base64.is_nil].
    by rewrite Hj, Ha, Hb.
  - change (Base64.b64encode (a :: b :: c :: l)) with
      (let x := Base64.group24 a b c in
       Base64.enc6 (x / 262144) :: Base64.enc6 ((x / 4096) mod 64)
         :: Base64.enc6 ((x / 64) mod 64) :: Base64.enc6 (x mod 64)
         :: Base64.b64encode l)%N.
    cbv zeta. rewrite b64decode_group, IH. done.
Qed.

Lemma issubclass_os_error (e : Py.os_error) :
  Py.issubclass (Py.os_error_class e) Py.Exception = true.
Proof. by destruct e. Qed.

Section get_screenshot.
Context {E : Type} `{!HistoryElement E}.
Implicit Types (self : BrowserStateHistory.t E) (d : gmap string Py.node)
  (tr : list Py.event) (p : string).

Lemma get_screenshot_no_path self d tr :
  BrowserStateHistory.screenshot_path self = None →
  BrowserStateHistory.get_screenshot self d tr = (Py.Returns None, tr).
Proof. unfold BrowserStateHistory.get_screenshot. by intros ->. Qed.

(** What the accessor does on a non-empty path, by what the path names. *)
Lemma get_screenshot_path self d tr p :
  BrowserStateHistory.screenshot_path self = Some p → Py.str_bool p = true →
  BrowserStateHistory.get_screenshot self d tr =
    match d !! p with
    | None => (Py.Returns None, tr ++ [Py.EvStat p])
    | Some (Py.RegularFile c) =>
        (Py.Returns (Some (Bytes.to_string (Base64.b64encode c))),
         tr ++ [Py.EvStat p] ++ [Py.EvOpen p] ++ [Py.EvRead p] ++ [Py.EvClose p])
    | Some (Py.Unreadable _) =>
        (Py.Returns None,
         tr ++ [Py.EvStat p] ++ [Py.EvOpen p] ++ [Py.EvRead p] ++ [Py.EvClose p])
    | Some (Py.Unstatable e) =>
        (if Py.ignore_error e then Py.Returns None
         else Py.Raises (Py.os_error_class e),
         tr ++ [Py.EvStat p])
    | Some _ => (Py.Returns None, tr ++ [Py.EvStat p] ++ [Py.EvOpen p])
    end.
Proof.
  intros Hp Hne. unfold BrowserStateHistory.get_screenshot. rewrite Hp, Hne.
  cbn [negb]. unfold Py.path_exists, Py.try_except, Py.with_open_rb, Py.open_rb,
    Py.try_finally, Py.read, Py.close, Py.bind, Py.log, Py.disk_lookup, Py.ret, Py.raise.
  cbn -[Base64.b64encode Utf8.decode].
  destruct (d !! p) as [[c| |e|e|e]|] eqn:Hd; cbn -[Base64.b64encode Utf8.decode];
    rewrite ?Hd; cbn -[Base64.b64encode Utf8.decode].
  - rewrite decode_b64encode. by rewrite <- !app_assoc.
  - by rewrite <- !app_assoc.
  - destruct e; cbn; by rewrite <- !app_assoc.
  - destruct e; cbn; by rewrite <- !app_assoc.
  - by destruct e.
  - done.
Qed.

Lemma get_screenshot_falsy_path self d tr p :
  BrowserStateHistory.screenshot_path self = Some p → Py.str_bool p = false →
  BrowserStateHistory.get_screenshot self d tr = (Py.Returns None, tr).
Proof. unfold BrowserStateHistory.get_screenshot. by intros -> ->. Qed.

(** C1. The accessor is lenient but for its existence test, which stands
    before the [try]: when the [stat] of the recorded path fails with an
    error that [Path.exists] does not read as "no such path" (no search
    permission on a directory above the file, a name too long), the error
    leaves [get_screenshot] as an exception, after that one access. *)
Theorem get_screenshot_stat_error_escapes self d tr p e :
  BrowserStateHistory.screenshot_path self = Some p → p ≠ "" →
  d !! p = Some (Py.Unstatable e) → Py.ignore_error e = false →
  BrowserStateHistory.get_screenshot self d tr
  = (Py.Raises (Py.os_error_class e), tr ++ [Py.EvStat p]).
Proof.
  intros Hp Hne Hd He.
  assert (Hb : Py.str_bool p = true) by by destruct p.
  by rewrite (get_screenshot_path _ d tr p Hp Hb), Hd, He.
Qed.

(** C2. On a path that names a readable file with content [B], the accessor
    returns the Base64 text of [B]: the string of the characters of
    [b64encode B], which decodes back to exactly [B]. The empty path names
    no file. *)
Theorem get_screenshot_base64 self d tr p B :
  BrowserStateHistory.screenshot_path self = Some p →
  d !! "" = None →
  d !! p = Some (Py.RegularFile B) →
  ∃ s tr',
    BrowserStateHistory.get_screenshot self d tr = (Py.Returns (Some s), tr')
    ∧ s = Bytes.to_string (Base64.b64encode B)
    ∧ Base64.b64decode (Bytes.of_string s) = Some B.
Proof.
  intros Hp Hempty Hd.
  assert (Hb : Py.str_bool p = true).
  { destruct p; [congruence|done]. }
  rewrite (get_screenshot_path _ d tr p Hp Hb), Hd.
  eexists _, _. split; [reflexivity|]. split; [reflexivity|].
  unfold Bytes.of_string, Bytes.to_string.
  by rewrite list_byte_of_string_of_list_byte, b64decode_b64encode.
Qed.

(** C10. An empty recorded path gives [None] with no disk access: the log
    of accesses is left as it was, whatever the disk holds. *)
Theorem get_screenshot_empty_path self d tr :
  BrowserStateHistory.screenshot_path self = Some "" →
  BrowserStateHistory.get_screenshot self d tr = (Py.Returns None, tr).
Proof. intros Hp. by apply (get_screenshot_falsy_path _ d tr ""). Qed.

End get_screenshot.

(** C2, witness: the file of the sample disk. *)
Lemma get_screenshot_base64_witness :
  ∃ s tr',
    BrowserStateHistory.get_screenshot
      (BrowserStateHistory.__init__ (DOMHistoryElement := Sample.element)
         "https://a.test" "A" [] [] (Some (Some "shots/step_1.png")))
      Sample.disk [] = (Py.Returns (Some s), tr')
    ∧ s = Bytes.to_string (Base64.b64encode Sample.file)
    ∧ Base64.b64decode (Bytes.of_string s) = Some Sample.file.
Proof.
  apply (get_screenshot_base64 _ Sample.disk [] "shots/step_1.png" Sample.file);
    reflexivity.
Defined.

(** C1, witness: a screenshot under a directory that may not be searched;
    the call ends in a [PermissionError]. *)
Lemma get_screenshot_stat_error_escapes_witness :
  BrowserStateHistory.get_screenshot
    (BrowserStateHistory.__init__ (DOMHistoryElement := Sample.element)
       "https://a.test" "A" [] [] (Some (Some "/root/shots/step_1.png")))
    {["/root/shots/step_1.png" := Py.Unstatable Py.EACCES]} []
  = (Py.Raises Py.PermissionError, [Py.EvStat "/root/shots/step_1.png"]).
Proof.
  apply (get_screenshot_stat_error_escapes _ _ [] "/root/shots/step_1.png" Py.EACCES);
    [reflexivity|discriminate|reflexivity|reflexivity].
Defined.

(** C10, witness: an empty path, on a disk that holds a file under it. *)
Lemma get_screenshot_empty_path_witness :
  BrowserStateHistory.get_screenshot
    (BrowserStateHistory.__init__ (DOMHistoryElement := Sample.element)
       "https://a.test" "A" [] [] (Some (Some "")))
    (<["" := Py.RegularFile Sample.file]> Sample.disk) []
  = (Py.Returns None, []).
Proof. apply get_screenshot_empty_path. reflexivity. Defined.

(** *** The accessor on a sample disk *)

Example get_screenshot_sample_file :
  BrowserStateHistory.get_screenshot
    (BrowserStateHistory.__init__ (DOMHistoryElement := Sample.element)
       "https://a.test" "A" [] [] (Some (Some "shots/step_1.png")))
    Sample.disk []
  = (Py.Returns (Some "UE5H"),
     [Py.EvStat "shots/step_1.png"; Py.EvOpen "shots/step_1.png";
      Py.EvRead "shots/step_1.png"; Py.EvClose "shots/step_1.png"]).
Proof. reflexivity. Qed.

Example get_screenshot_sample_missing :
  BrowserStateHistory.get_screenshot
    (BrowserStateHistory.__init__ (DOMHistoryElement := Sample.element)
       "https://a.test" "A" [] [] (Some (Some "shots/step_2.png")))
    Sample.disk []
  = (Py.Returns None, [Py.EvStat "shots/step_2.png"]).
Proof. reflexivity. Qed.

Example get_screenshot_sample_directory :
  BrowserStateHistory.get_screenshot
    (BrowserStateHistory.__init__ (DOMHistoryElement := Sample.element)
       "https://a.test" "A" [] [] (Some (Some "shots")))
    (<["shots" := Py.Directory]> Sample.disk) []
  = (Py.Returns None, [Py.EvStat "shots"; Py.EvOpen "shots"]).
Proof. reflexivity. Qed.

Example URLNotAllowedError_is_BrowserError :
  Py.issubclass Py.URLNotAllowedError Py.BrowserError = true
  ∧ Py.issubclass Py.BrowserError Py.Exception = true
  ∧ Py.issubclass Py.BrowserError Py.URLNotAllowedError = false.
Proof. done. Qed.

(** *** Serialization *)

Lemma of_opt_int_inj : Inj (=) (=) Py.of_opt_int.
Proof. intros [x|] [y|] H; by simplify_eq/=. Qed.

Lemma of_opt_str_inj : Inj (=) (=) Py.of_opt_str.
Proof. intros [x|] [y|] H; by simplify_eq/=. Qed.

Lemma VDict_inj : Inj (=) (=) Py.VDict.
Proof. intros d1 d2 H. by injection H. Qed.

Lemma model_dump_lookups (tab : TabInfo.t) :
  TabInfo.model_dump tab !! "page_id" = Some (Py.VInt (TabInfo.page_id tab))
  ∧ TabInfo.model_dump tab !! "url" = Some (Py.VStr (TabInfo.url tab))
  ∧ TabInfo.model_dump tab !! "title" = Some (Py.VStr (TabInfo.title tab))
  ∧ TabInfo.model_dump tab !! "parent_page_id"
    = Some (Py.of_opt_int (TabInfo.parent_page_id tab)).
Proof. unfold TabInfo.model_dump. repeat split; by simplify_map_eq. Qed.

Lemma model_dump_inj : Inj (=) (=) TabInfo.model_dump.
Proof.
  intros t1 t2 H.
  destruct (model_dump_lookups t1) as (Hi1 & Hu1 & Ht1 & Hp1).
  destruct (model_dump_lookups t2) as (Hi2 & Hu2 & Ht2 & Hp2).
  rewrite H in Hi1, Hu1, Ht1, Hp1.
  destruct t1, t2; simplify_eq/=. f_equal. by apply of_opt_int_inj.
Qed.

Section to_dict.
Context {E : Type} `{!HistoryElement E}.
Implicit Types self h : BrowserStateHistory.t E.

Lemma to_dict_lookups self :
  BrowserStateHistory.to_dict self !! "tabs"
    = Some (Py.VList (Py.VDict ∘ TabInfo.model_dump <$> BrowserStateHistory.tabs self))
  ∧ BrowserStateHistory.to_dict self !! "screenshot_path"
    = Some (Py.of_opt_str (BrowserStateHistory.screenshot_path self))
  ∧ BrowserStateHistory.to_dict self !! "interacted_element"
    = Some (Py.VList (BrowserStateHistory.dump_element
                        <$> BrowserStateHistory.interacted_element self))
  ∧ BrowserStateHistory.to_dict self !! "url"
    = Some (Py.VStr (BrowserStateHistory.url self))
  ∧ BrowserStateHistory.to_dict self !! "title"
    = Some (Py.VStr (BrowserStateHistory.title self)).
Proof. unfold BrowserStateHistory.to_dict. repeat split; by simplify_map_eq. Qed.




(** C4. The [interacted_element] list that [to_dict] emits has the length
    of the field and the same order: the slot at each index is the dump of
    the field's slot at that index, an unresolved slot gives the null
    marker, and a field of unresolved slots only gives as many null
    markers. *)
Theorem to_dict_interacted_element_slots self :
  ∃ slots,
    BrowserStateHistory.to_dict self !! "interacted_element" = Some (Py.VList slots)
    ∧ length slots = length (BrowserStateHistory.interacted_element self)
    ∧ (∀ i, slots !! i
            = BrowserStateHistory.dump_element
                <$> BrowserStateHistory.interacted_element self !! i)
    ∧ (∀ i, BrowserStateHistory.interacted_element self !! i = Some None →
            slots !! i = Some Py.VNone)
    ∧ (Forall (λ el, el = None) (BrowserStateHistory.interacted_element self) →
       slots = replicate (length (BrowserStateHistory.interacted_element self)) Py.VNone).
Proof.
  destruct (to_dict_lookups self) as (_ & _ & Hi & _).
  eexists. split; [exact Hi|]. split; [apply length_fmap|].
  split; [intros i; apply list_lookup_fmap|]. split.
  - intros i Hn. by rewrite list_lookup_fmap, Hn.
  - generalize (BrowserStateHistory.interacted_element self). intros l Hl.
    induction Hl as [|el l -> _ IH]; [done|]. cbn. by rewrite IH.
Qed.

(** C5. [to_dict] loses nothing of what it emits: two entries with equal
    outputs have the same [url], [title], tab list, [screenshot_path],
    number of slots and slots. The descriptor class is declared elsewhere;
    what is asked of it is that its objects are truthy (a plain object is)
    and that its own [to_dict] is injective. *)
Theorem to_dict_lossless (Hbool : ∀ e : E, el_bool e = true)
    (Hinj : Inj (=) (=) (el_to_dict (E := E))) h1 h2 :
  BrowserStateHistory.to_dict h1 = BrowserStateHistory.to_dict h2 →
  BrowserStateHistory.url h1 = BrowserStateHistory.url h2
  ∧ BrowserStateHistory.title h1 = BrowserStateHistory.title h2
  ∧ BrowserStateHistory.tabs h1 = BrowserStateHistory.tabs h2
  ∧ BrowserStateHistory.screenshot_path h1 = BrowserStateHistory.screenshot_path h2
  ∧ length (BrowserStateHistory.interacted_element h1)
    = length (BrowserStateHistory.interacted_element h2)
  ∧ BrowserStateHistory.interacted_element h1 = BrowserStateHistory.interacted_element h2.
Proof.
  intros H.
  destruct (to_dict_lookups h1) as (Ht1 & Hs1 & Hi1 & Hu1 & Hti1).
  destruct (to_dict_lookups h2) as (Ht2 & Hs2 & Hi2 & Hu2 & Hti2).
  rewrite H in Ht1, Hs1, Hi1, Hu1, Hti1.
  assert (Hdump : Inj (=) (=) (BrowserStateHistory.dump_element (DOMHistoryElement := E))).
  { intros [e1|] [e2|]; cbn; rewrite ?Hbool; intros ?; by simplify_eq. }
  assert (Hdict : Inj (=) (=) (Py.VDict ∘ TabInfo.model_dump)).
  { intros t1 t2 Heq. by apply model_dump_inj, VDict_inj. }
  assert (Hie : BrowserStateHistory.interacted_element h1
                = BrowserStateHistory.interacted_element h2).
  { apply (list_fmap_eq_inj _ Hdump). congruence. }
  repeat split; try congruence.
  - apply (list_fmap_eq_inj _ Hdict). congruence.
  - apply of_opt_str_inj. congruence.
Qed.

End to_dict.

Lemma sample_to_dict_inj : Inj (=) (=) (el_to_dict (E := Sample.element)).
Proof.
  intros [t1 x1] [t2 x2] H.
  assert (Hx := f_equal (.!! "xpath") H). assert (Ht := f_equal (.!! "tag_name") H).
  cbn in Hx, Ht. by simplify_map_eq.
Qed.

(** C5, witness: an entry with a resolved and an unresolved slot. *)
Lemma to_dict_lossless_witness :
  let h := BrowserStateHistory.__init__ "https://a.test" "A"
             [TabInfo.__init__ 1 "https://a.test" "A" None]
             [Some (Sample.Element "button" "/html/body/button"); None] None in
  BrowserStateHistory.url h = BrowserStateHistory.url h
  ∧ BrowserStateHistory.title h = BrowserStateHistory.title h
  ∧ BrowserStateHistory.tabs h = BrowserStateHistory.tabs h
  ∧ BrowserStateHistory.screenshot_path h = BrowserStateHistory.screenshot_path h
  ∧ length (BrowserStateHistory.interacted_element h)
    = length (BrowserStateHistory.interacted_element h)
  ∧ BrowserStateHistory.interacted_element h = BrowserStateHistory.interacted_element h.
Proof.
  intros h.
  apply (@to_dict_lossless Sample.element Sample.element_history
           (λ _, eq_refl) sample_to_dict_inj h h).
  reflexivity.
Defined.

(** *** Snapshots *)

Section summary.
Context {DOMElementNode SelectorMap E : Type} `{!HistoryElement E}.

Lemma step_preserves (o : Store.op (DOMElementNode := DOMElementNode)
    (SelectorMap := SelectorMap) (DOMHistoryElement := E)) σ l x :
  σ !! l = Some x → fst (Store.step o σ) !! l = Some x.
Proof.
  intros Hl.
  assert (Hfresh : fresh (dom σ) ≠ l).
  { intros <-. apply (is_fresh (dom σ)). apply elem_of_dom. eauto. }
  destruct o; cbn; try done; by rewrite lookup_insert_ne.
Qed.

Lemma run_preserves (os : list (Store.op (DOMElementNode := DOMElementNode)
    (SelectorMap := SelectorMap) (DOMHistoryElement := E))) σ l x :
  σ !! l = Some x → Store.run os σ !! l = Some x.
Proof.
  revert σ. induction os as [|o os IH]; intros σ Hl; [done|].
  cbn. by apply IH, step_preserves.
Qed.

(** C6, as amended. The constructor of the snapshot checks nothing about
    the tabs: the snapshot holds the tab list it is given, so the parents
    named by its tabs resolve exactly when they do in the list supplied;
    they do for a tab 1 with a tab 2 whose parent is 1. *)
Theorem summary_tabs_unchecked (element_tree : DOMElementNode)
    (selector_map : SelectorMap) (url title : string) (tabs : list TabInfo.t)
    screenshot page_info pixels_above pixels_below browser_errors is_pdf_viewer
    loading_status :
  let s := BrowserStateSummary.__init__ element_tree selector_map url title tabs
             screenshot page_info pixels_above pixels_below browser_errors
             is_pdf_viewer loading_status in
  BrowserStateSummary.tabs s = tabs
  ∧ (parents_resolve (BrowserStateSummary.tabs s) ↔ parents_resolve tabs)
  ∧ parents_resolve
      [TabInfo.__init__ 1 "https://a.test" "A" None;
       TabInfo.__init__ 2 "https://b.test" "B" (Some (Some 1%Z))].
Proof.
  intros s. split; [done|]. split; [done|].
  intros t Ht p Hp. apply list_elem_of_In in Ht. cbn in Ht.
  destruct Ht as [<-|[<-|[]]]; cbn in Hp; simplify_eq.
  eexists. split; [apply list_elem_of_here|done].
Qed.

(** C8. Every field of a constructed snapshot reads as the value given to
    the constructor, and no sequence of operations of the module (the two
    constructors, [get_screenshot], [to_dict]) changes a snapshot held in
    the store. *)
Theorem summary_value_object (element_tree : DOMElementNode)
    (selector_map : SelectorMap) (url title : string) (tabs : list TabInfo.t)
    (screenshot : option string) (page_info : option PageInfo.t)
    (pixels_above pixels_below : Z) (browser_errors : list string)
    (is_pdf_viewer : bool) (loading_status : option string) :
  let s := BrowserStateSummary.__init__ element_tree selector_map url title tabs
             (Some screenshot) (Some page_info) (Some pixels_above)
             (Some pixels_below) (Some browser_errors) (Some is_pdf_viewer)
             (Some loading_status) in
  (BrowserStateSummary.element_tree s = element_tree
   ∧ BrowserStateSummary.selector_map s = selector_map
   ∧ BrowserStateSummary.url s = url
   ∧ BrowserStateSummary.title s = title
   ∧ BrowserStateSummary.tabs s = tabs
   ∧ BrowserStateSummary.screenshot s = screenshot
   ∧ BrowserStateSummary.page_info s = page_info
   ∧ BrowserStateSummary.pixels_above s = pixels_above
   ∧ BrowserStateSummary.pixels_below s = pixels_below
   ∧ BrowserStateSummary.browser_errors s = browser_errors
   ∧ BrowserStateSummary.is_pdf_viewer s = is_pdf_viewer
   ∧ BrowserStateSummary.loading_status s = loading_status)
  ∧ ∀ (os : list (Store.op (DOMHistoryElement := E))) σ l,
      σ !! l = Some (Store.Summary s) →
      Store.run os σ !! l = Some (Store.Summary s).
Proof.
  intros s. split; [by repeat split|]. intros os σ l. apply run_preserves.
Qed.

End summary.

(** C6, counterexample. A snapshot can be constructed whose only tab names
    a parent, 1, that is the id of no tab of the snapshot. *)
Lemma summary_parent_unresolved :
  let s := BrowserStateSummary.__init__ (DOMElementNode := ()) (SelectorMap := ())
             () () "https://b.test" "B"
             [TabInfo.__init__ 2 "https://b.test" "B" (Some (Some 1%Z))]
             None None None None None None None in
  ∃ t, t ∈ BrowserStateSummary.tabs s
       ∧ TabInfo.parent_page_id t = Some 1%Z
       ∧ (∀ t', t' ∈ BrowserStateSummary.tabs s → TabInfo.page_id t' ≠ 1%Z)
       ∧ (parents_resolve (BrowserStateSummary.tabs s) ↔ False).
Proof.
  intros s. eexists. split; [apply list_elem_of_here|]. split; [done|].
  assert (Hno : ∀ t', t' ∈ BrowserStateSummary.tabs s → TabInfo.page_id t' ≠ 1%Z).
  { intros t' Ht'. apply list_elem_of_In in Ht'. cbn in Ht'.
    by destruct Ht' as [<-|[]]. }
  split; [done|]. split; [|done].
  intros H. destruct (H _ (list_elem_of_here _ _) 1%Z eq_refl) as (t' & Ht' & Hid).
  by apply (Hno t').
Qed.

(** *** Page geometry *)

(** C7, counterexample. A negative viewport width is accepted and kept. *)
Lemma page_info_negative :
  let p := PageInfo.__init__ (-1) 600 800 600 0 0 0 0 0 0 in
  PageInfo.viewport_width p = (-1)%Z ∧ (PageInfo.nonneg p ↔ False).
Proof. intros p. split; [done|]. unfold PageInfo.nonneg. cbn. lia. Qed.

(** C7, as amended. [PageInfo] keeps the ten integers it is given, with no
    check of their sign: its fields are all at least 0 exactly when the
    values supplied are. *)
Theorem page_info_unchecked (viewport_width viewport_height page_width page_height
    scroll_x scroll_y pixels_above pixels_below pixels_left pixels_right : Z) :
  let p := PageInfo.__init__ viewport_width viewport_height page_width page_height
             scroll_x scroll_y pixels_above pixels_below pixels_left pixels_right in
  (PageInfo.viewport_width p = viewport_width
   ∧ PageInfo.viewport_height p = viewport_height
   ∧ PageInfo.page_width p = page_width
   ∧ PageInfo.page_height p = page_height
   ∧ PageInfo.scroll_x p = scroll_x
   ∧ PageInfo.scroll_y p = scroll_y
   ∧ PageInfo.pixels_above p = pixels_above
   ∧ PageInfo.pixels_below p = pixels_below
   ∧ PageInfo.pixels_left p = pixels_left
   ∧ PageInfo.pixels_right p = pixels_right)
  ∧ (PageInfo.nonneg p ↔
     (0 ≤ viewport_width ∧ 0 ≤ viewport_height ∧ 0 ≤ page_width ∧ 0 ≤ page_height
      ∧ 0 ≤ scroll_x ∧ 0 ≤ scroll_y ∧ 0 ≤ pixels_above ∧ 0 ≤ pixels_below
      ∧ 0 ≤ pixels_left ∧ 0 ≤ pixels_right)%Z).
Proof. intros p. split; [by repeat split|]. unfold PageInfo.nonneg. by cbn. Qed.

(** *** The placeholder screenshot *)

(** C9. The placeholder constant is Base64 text; the bytes it stands for
    are a PNG stream (signature, chunks with matching CRC-32, a zlib stream
    with matching Adler-32) that decodes to a truecolour image of 4 by 4
    pixels, every one of them white. *)
Theorem placeholder_is_4x4_white_png :
  ∃ raw im,
    Base64.b64decode (Bytes.of_string PLACEHOLDER_4PX_SCREENSHOT) = Some raw
    ∧ Png.decode (Byte.to_N <$> raw) = Some im
    ∧ Png.width im = 4%N ∧ Png.height im = 4%N
    ∧ Png.all_white im = true
    ∧ Png.rows im = replicate 4 (replicate 4 Png.white).
Proof.
  eexists _, _. split; [by vm_compute|]. split; [by vm_compute|]. by vm_compute.
Qed.

(** *** Further properties of the accessor *)

Lemma str_bool_true (p : string) : Py.str_bool p = true ↔ p ≠ "".
Proof. by destruct p. Qed.

Lemma b64encode_length (l : list byte) :
  length (Base64.b64encode l) = 4 * ((length l + 2) / 3).
Proof.
  induction l as [|a|a b|a b c l IH] using list_ind3; try done.
  cbn [Base64.b64encode length]. rewrite IH.
  replace (S (S (S (length l))) + 2) with ((length l + 2) + 1 * 3) by lia.
  rewrite Nat.div_add by done. lia.
Qed.

Lemma is_char_enc6 (n : N) : (n < 64)%N → Base64.is_char (Base64.enc6 n) = true.
Proof.
  intros Hn. unfold Base64.is_char. by rewrite (proj1 (enc6_small n Hn)).
Qed.

Lemma b64encode_chars (l : list byte) :
  Forall (λ c, Base64.is_char c = true) (Base64.b64encode l).
Proof.
  induction l as [|a|a b|a b c l IH] using list_ind3; cbn [Base64.b64encode].
  - constructor.
  - destruct (sextets _ (group24_bound a x00 x00)) as (H0 & H1 & _).
    repeat constructor; by apply is_char_enc6.
  - destruct (sextets _ (group24_bound a b x00)) as (H0 & H1 & H2 & _).
    repeat constructor; by apply is_char_enc6.
  - destruct (sextets _ (group24_bound a b c)) as (H0 & H1 & H2 & H3 & _).
    repeat (constructor; [by apply is_char_enc6|]). exact IH.
Qed.

Lemma b64encode_inj : Inj (=) (=) Base64.b64encode.
Proof.
  intros l1 l2 H. apply (f_equal Base64.b64decode) in H.
  rewrite !b64decode_b64encode in H. by simplify_eq.
Qed.

Lemma to_string_inj : Inj (=) (=) Bytes.to_string.
Proof.
  intros b1 b2 H. apply (f_equal Bytes.of_string) in H.
  unfold Bytes.of_string, Bytes.to_string in H.
  by rewrite !list_byte_of_string_of_list_byte in H.
Qed.

Lemma to_string_length (b : list byte) : String.length (Bytes.to_string b) = length b.
Proof. induction b as [|c b IH]; [done|]. cbn. by rewrite <- IH. Qed.

Section accessor.
Context {E : Type} `{!HistoryElement E}.
Implicit Types (self h : BrowserStateHistory.t E) (d : gmap string Py.node)
  (tr : list Py.event) (p : string).

(** A screenshot comes from a readable regular file under a non-empty
    path. *)
Lemma get_screenshot_some_inv self d tr s :
  fst (BrowserStateHistory.get_screenshot self d tr) = Py.Returns (Some s) →
  ∃ p B, BrowserStateHistory.screenshot_path self = Some p ∧ p ≠ ""
         ∧ d !! p = Some (Py.RegularFile B)
         ∧ s = Bytes.to_string (Base64.b64encode B).
Proof.
  destruct (BrowserStateHistory.screenshot_path self) as [p|] eqn:Hp.
  - destruct (Py.str_bool p) eqn:Hb.
    + rewrite (get_screenshot_path _ d tr p Hp Hb). apply str_bool_true in Hb.
      destruct (d !! p) as [[c| |e|e|e]|] eqn:Hd;
        try destruct (Py.ignore_error e); cbn; intros [=]. subst.
      by exists p, c.
    + by rewrite (get_screenshot_falsy_path _ d tr p Hp Hb).
  - by rewrite (get_screenshot_no_path _ d tr Hp).
Qed.

(** X1. The accessor returns a screenshot exactly when the recorded path is
    not empty and names a regular file that can be read; the screenshot is
    then the Base64 text of the content of the file. *)
Theorem get_screenshot_some_iff self d tr s :
  fst (BrowserStateHistory.get_screenshot self d tr) = Py.Returns (Some s)
  ↔ ∃ p B, BrowserStateHistory.screenshot_path self = Some p ∧ p ≠ ""
           ∧ d !! p = Some (Py.RegularFile B)
           ∧ s = Bytes.to_string (Base64.b64encode B).
Proof.
  destruct (BrowserStateHistory.screenshot_path self) as [p|] eqn:Hp.
  - destruct (Py.str_bool p) eqn:Hb.
    + rewrite (get_screenshot_path _ d tr p Hp Hb). apply str_bool_true in Hb.
      destruct (d !! p) as [[c| |e|e|e]|] eqn:Hd;
        try destruct (Py.ignore_error e); cbn; split;
        try (intros [=]); try (intros (? & ? & ? & ? & ? & ?); by simplify_eq).
      * subst. by exists p, c.
    + rewrite (get_screenshot_falsy_path _ d tr p Hp Hb).
      destruct p; [|done]. cbn. split; [done|].
      intros (? & ? & ? & ? & ?); by simplify_eq.
  - rewrite (get_screenshot_no_path _ d tr Hp). cbn. split; [done|].
    intros (? & ? & ? & ?); by simplify_eq.
Qed.

(** X2. What the accessor does to the disk: it only adds to the log of
    accesses, at most four of them, all about the recorded path; it touches
    the disk exactly when the recorded path is not empty, and then starts
    with a [stat] of it; it never opens a path that names nothing. *)
Theorem get_screenshot_footprint self d tr :
  ∃ evs,
    snd (BrowserStateHistory.get_screenshot self d tr) = tr ++ evs
    ∧ length evs ≤ 4
    ∧ (∀ ev, ev ∈ evs →
         BrowserStateHistory.screenshot_path self = Some (Py.event_path ev))
    ∧ (evs = [] ↔ BrowserStateHistory.screenshot_path self = None
                  ∨ BrowserStateHistory.screenshot_path self = Some "")
    ∧ (∀ ev, head evs = Some ev →
         ∃ p, ev = Py.EvStat p)
    ∧ (∀ p, Py.EvOpen p ∈ evs → is_Some (d !! p)).
Proof.
  destruct (BrowserStateHistory.screenshot_path self) as [p|] eqn:Hp.
  - destruct (Py.str_bool p) eqn:Hb.
    + rewrite (get_screenshot_path _ d tr p Hp Hb). apply str_bool_true in Hb.
      destruct (d !! p) as [[c| |e|e|e]|] eqn:Hd; cbn; eexists;
        (split; [reflexivity|]); cbn; (split; [lia|]);
        (split; [intros ev Hev; apply list_elem_of_In in Hev; cbn in Hev;
                 by repeat (destruct Hev as [<-|Hev])|]);
        (split; [split; [done|intros [|]; congruence]|]);
        (split; [intros ev [= <-]; eauto|]);
        intros q Hq; apply list_elem_of_In in Hq; cbn in Hq;
        repeat (destruct Hq as [Hq|Hq]); simplify_eq; eauto.
    + rewrite (get_screenshot_falsy_path _ d tr p Hp Hb).
      destruct p; [|done]. exists []. rewrite app_nil_r. cbn.
      split; [done|]. split; [lia|]. split; [by intros ? ?%elem_of_nil|].
      split; [naive_solver|]. split; [done|]. by intros ? ?%elem_of_nil.
  - rewrite (get_screenshot_no_path _ d tr Hp). exists []. rewrite app_nil_r. cbn.
    split; [done|]. split; [lia|]. split; [by intros ? ?%elem_of_nil|].
    split; [naive_solver|]. split; [done|]. by intros ? ?%elem_of_nil.
Qed.

(** X3. The file is closed exactly when it was opened: a close of [p] is
    logged if and only if [p] is the recorded, non-empty path and names a
    node that [open] accepts -- a readable file, or one whose [read] then
    fails -- and the close is then the last access. *)
Theorem get_screenshot_closes_file self d p :
  let evs := snd (BrowserStateHistory.get_screenshot self d []) in
  (Py.EvClose p ∈ evs
   ↔ BrowserStateHistory.screenshot_path self = Some p ∧ p ≠ ""
     ∧ ((∃ c, d !! p = Some (Py.RegularFile c))
        ∨ (∃ e, d !! p = Some (Py.Unreadable e))))
  ∧ (Py.EvClose p ∈ evs → last evs = Some (Py.EvClose p)).
Proof.
  intros evs. subst evs.
  destruct (BrowserStateHistory.screenshot_path self) as [q|] eqn:Hq.
  - destruct (Py.str_bool q) eqn:Hb.
    + rewrite (get_screenshot_path _ d [] q Hq Hb). apply str_bool_true in Hb.
      destruct (d !! q) as [[c| |e|e|e]|] eqn:Hd; cbn; (split; [split|]);
        try (intros Hin; apply list_elem_of_In in Hin; cbn in Hin;
             repeat (destruct Hin as [Hin|Hin]); simplify_eq; by eauto 10);
        try (intros (? & ? & [[? ?]|[? ?]]); simplify_eq;
             apply list_elem_of_In; cbn; by auto 10).
    + rewrite (get_screenshot_falsy_path _ d [] q Hq Hb).
      destruct q; [|done]. cbn. split; [split|]; try by intros ?%elem_of_nil.
      intros (? & ? & _); by simplify_eq.
  - rewrite (get_screenshot_no_path _ d [] Hq). cbn.
    split; [split|]; try by intros ?%elem_of_nil. by intros (? & _).
Qed.

(** X4. The result and the accesses depend on the entry through its
    recorded path only, and on the disk through what that path names. *)
Theorem get_screenshot_depends_on_path h1 h2 d1 d2 tr :
  BrowserStateHistory.screenshot_path h1 = BrowserStateHistory.screenshot_path h2 →
  (∀ p, BrowserStateHistory.screenshot_path h1 = Some p → d1 !! p = d2 !! p) →
  BrowserStateHistory.get_screenshot h1 d1 tr
  = BrowserStateHistory.get_screenshot h2 d2 tr.
Proof.
  intros Hpath Hd.
  destruct (BrowserStateHistory.screenshot_path h1) as [p|] eqn:Hp1; symmetry in Hpath.
  - destruct (Py.str_bool p) eqn:Hb.
    + rewrite (get_screenshot_path _ d1 tr p Hp1 Hb),
        (get_screenshot_path _ d2 tr p Hpath Hb). by rewrite (Hd p).
    + by rewrite (get_screenshot_falsy_path _ d1 tr p Hp1 Hb),
        (get_screenshot_falsy_path _ d2 tr p Hpath Hb).
  - by rewrite (get_screenshot_no_path _ d1 tr Hp1),
      (get_screenshot_no_path _ d2 tr Hpath).
Qed.

(** X5. A screenshot is Base64 text: four characters for every three
    bytes of the file, the last group padded, all of them characters of the
    alphabet or the padding character. *)
Theorem get_screenshot_text_shape self d tr s :
  fst (BrowserStateHistory.get_screenshot self d tr) = Py.Returns (Some s) →
  ∃ p B, BrowserStateHistory.screenshot_path self = Some p
         ∧ d !! p = Some (Py.RegularFile B)
         ∧ String.length s = 4 * ((length B + 2) / 3)
         ∧ Forall (λ c, Base64.is_char c = true) (Bytes.of_string s).
Proof.
  intros (p & B & Hp & _ & Hd & ->)%get_screenshot_some_inv.
  exists p, B. split; [done|]. split; [done|]. split.
  - by rewrite to_string_length, b64encode_length.
  - unfold Bytes.of_string, Bytes.to_string.
    rewrite list_byte_of_string_of_list_byte. apply b64encode_chars.
Qed.

(** X6. The screenshot determines the content of the file: two reads
    (of any entries, on any disks) that return the same text read files
    with the same bytes. *)
Theorem get_screenshot_content_inj h1 h2 d1 d2 tr1 tr2 s :
  fst (BrowserStateHistory.get_screenshot h1 d1 tr1) = Py.Returns (Some s) →
  fst (BrowserStateHistory.get_screenshot h2 d2 tr2) = Py.Returns (Some s) →
  ∃ p1 p2 B, BrowserStateHistory.screenshot_path h1 = Some p1
             ∧ BrowserStateHistory.screenshot_path h2 = Some p2
             ∧ d1 !! p1 = Some (Py.RegularFile B)
             ∧ d2 !! p2 = Some (Py.RegularFile B).
Proof.
  intros (p1 & B1 & Hp1 & _ & Hd1 & ->)%get_screenshot_some_inv
         (p2 & B2 & Hp2 & _ & Hd2 & Heq)%get_screenshot_some_inv.
  apply to_string_inj, b64encode_inj in Heq. subst. by exists p1, p2, B2.
Qed.

(** X7. A file that holds the bytes the placeholder constant stands for is
    read back as the constant itself. *)
Theorem get_screenshot_placeholder self d tr p B :
  BrowserStateHistory.screenshot_path self = Some p → p ≠ "" →
  d !! p = Some (Py.RegularFile B) →
  Base64.b64decode (Bytes.of_string PLACEHOLDER_4PX_SCREENSHOT) = Some B →
  fst (BrowserStateHistory.get_screenshot self d tr)
  = Py.Returns (Some PLACEHOLDER_4PX_SCREENSHOT).
Proof.
  intros Hp Hne%str_bool_true Hd HB.
  rewrite (get_screenshot_path _ d tr p Hp Hne), Hd. cbn [fst].
  vm_compute in HB. injection HB as <-. by vm_compute.
Qed.

(** X8. Two entries with the same serialized form load the same
    screenshot, on every disk; nothing is asked of the descriptors. *)
Theorem to_dict_eq_get_screenshot h1 h2 d tr :
  BrowserStateHistory.to_dict h1 = BrowserStateHistory.to_dict h2 →
  BrowserStateHistory.get_screenshot h1 d tr
  = BrowserStateHistory.get_screenshot h2 d tr.
Proof.
  intros H.
  destruct (to_dict_lookups h1) as (_ & Hs1 & _).
  destruct (to_dict_lookups h2) as (_ & Hs2 & _).
  rewrite H, Hs2 in Hs1. injection Hs1 as Hs%of_opt_str_inj.
  unfold BrowserStateHistory.get_screenshot. by rewrite Hs.
Qed.

End accessor.

(** *** Further properties of the serialization *)

(** X9. The dump of a tab has exactly the keys [page_id], [url], [title] and
    [parent_page_id]; the last one is null exactly for a tab without
    parent; and the dump determines the tab. *)
Theorem tab_model_dump_lossless (t1 t2 : TabInfo.t) :
  dom (TabInfo.model_dump t1)
    = ({["page_id"; "url"; "title"; "parent_page_id"]} : gset string)
  ∧ (TabInfo.model_dump t1 !! "parent_page_id" = Some Py.VNone
     ↔ TabInfo.parent_page_id t1 = None)
  ∧ (TabInfo.model_dump t1 = TabInfo.model_dump t2 → t1 = t2).
Proof.
  split; [|split].
  - unfold TabInfo.model_dump. rewrite !dom_insert_L, dom_empty_L. set_solver.
  - destruct (model_dump_lookups t1) as (_ & _ & _ & ->).
    destruct (TabInfo.parent_page_id t1); cbn; split; by intros [=].
  - apply model_dump_inj.
Qed.

Section serialization.
Context {E : Type} `{!HistoryElement E}.
Implicit Types h : BrowserStateHistory.t E.

(** X10. The slot test is a truth test, not a test for [None]: an element
    that is falsy is serialized as the null marker, so replacing it by
    [None] leaves the serialized form as it is. *)
Theorem to_dict_falsy_element h (i : nat) (e : E) :
  el_bool e = false →
  BrowserStateHistory.interacted_element h !! i = Some (Some e) →
  BrowserStateHistory.to_dict h
  = BrowserStateHistory.to_dict
      (BrowserStateHistory.Build (BrowserStateHistory.url h)
         (BrowserStateHistory.title h) (BrowserStateHistory.tabs h)
         (<[i := None]> (BrowserStateHistory.interacted_element h))
         (BrowserStateHistory.screenshot_path h)).
Proof.
  intros Hb Hi. unfold BrowserStateHistory.to_dict. cbn.
  rewrite list_fmap_insert. cbn.
  rewrite (list_insert_id (BrowserStateHistory.dump_element
                             <$> BrowserStateHistory.interacted_element h) i Py.VNone);
    [done|].
  rewrite list_lookup_fmap, Hi. cbn. by rewrite Hb.
Qed.

(** X11. With nothing asked of the descriptors, two entries with equal
    serialized forms have the same [url], [title], tabs and
    [screenshot_path], as many slots, and slots with equal dumps. *)
Theorem to_dict_eq_fields h1 h2 :
  BrowserStateHistory.to_dict h1 = BrowserStateHistory.to_dict h2 →
  BrowserStateHistory.url h1 = BrowserStateHistory.url h2
  ∧ BrowserStateHistory.title h1 = BrowserStateHistory.title h2
  ∧ BrowserStateHistory.tabs h1 = BrowserStateHistory.tabs h2
  ∧ BrowserStateHistory.screenshot_path h1 = BrowserStateHistory.screenshot_path h2
  ∧ length (BrowserStateHistory.interacted_element h1)
    = length (BrowserStateHistory.interacted_element h2)
  ∧ BrowserStateHistory.dump_element <$> BrowserStateHistory.interacted_element h1
    = BrowserStateHistory.dump_element <$> BrowserStateHistory.interacted_element h2.
Proof.
  intros H.
  destruct (to_dict_lookups h1) as (Ht1 & Hs1 & Hi1 & Hu1 & Hti1).
  destruct (to_dict_lookups h2) as (Ht2 & Hs2 & Hi2 & Hu2 & Hti2).
  rewrite H in Ht1, Hs1, Hi1, Hu1, Hti1.
  assert (Hdict : Inj (=) (=) (Py.VDict ∘ TabInfo.model_dump)).
  { intros t1 t2 Heq. by apply model_dump_inj, VDict_inj. }
  assert (Hie : BrowserStateHistory.dump_element <$> BrowserStateHistory.interacted_element h1
                = BrowserStateHistory.dump_element <$> BrowserStateHistory.interacted_element h2)
    by congruence.
  repeat split; try congruence.
  - apply (list_fmap_eq_inj _ Hdict). congruence.
  - apply of_opt_str_inj. congruence.
  - apply (f_equal length) in Hie. by rewrite !length_fmap in Hie.
Qed.

End serialization.

(** *** The error classes *)

(** X12. [URLNotAllowedError] is a [BrowserError]: every [except] clause
    that catches [BrowserError] catches it, [except Exception] among them;
    a clause for [URLNotAllowedError] lets a plain [BrowserError] through. *)
Theorem except_BrowserError_catches_URLNotAllowedError {A} (c : Py.exn_class)
    (handler : Py.io A) d tr :
  (Py.issubclass Py.BrowserError c = true →
   Py.try_except (Py.raise Py.URLNotAllowedError) c handler d tr = handler d tr)
  ∧ Py.try_except (Py.raise Py.URLNotAllowedError) Py.Exception handler d tr
    = handler d tr
  ∧ Py.try_except (Py.raise Py.BrowserError) Py.URLNotAllowedError handler d tr
    = (Py.Raises Py.BrowserError, tr).
Proof. split; [|done]. by destruct c. Qed.

(** *** History entries in the store *)

Section entries.
Context {DOMElementNode SelectorMap E : Type} `{!HistoryElement E}.


End entries.

(** *** Witnesses *)

(** X4, witness: two entries that differ in [url], on two disks that differ
    elsewhere. *)
Lemma get_screenshot_depends_on_path_witness :
  BrowserStateHistory.get_screenshot
    (BrowserStateHistory.__init__ (DOMHistoryElement := Sample.element)
       "https://a.test" "A" [] [] (Some (Some "shots/step_1.png")))
    Sample.disk []
  = BrowserStateHistory.get_screenshot
      (BrowserStateHistory.__init__ (DOMHistoryElement := Sample.element)
         "https://b.test" "B" [] [None] (Some (Some "shots/step_1.png")))
      (<["shots/step_2.png" := Py.Directory]> Sample.disk) [].
Proof.
  apply get_screenshot_depends_on_path; [reflexivity|].
  intros p [= <-]. reflexivity.
Defined.

(** X5, witness: the three bytes of the sample file give four characters. *)
Lemma get_screenshot_text_shape_witness :
  ∃ p B,
    BrowserStateHistory.screenshot_path
      (BrowserStateHistory.__init__ (DOMHistoryElement := Sample.element)
         "https://a.test" "A" [] [] (Some (Some "shots/step_1.png"))) = Some p
    ∧ Sample.disk !! p = Some (Py.RegularFile B)
    ∧ String.length "UE5H" = 4 * ((length B + 2) / 3)
    ∧ Forall (λ c, Base64.is_char c = true) (Bytes.of_string "UE5H").
Proof. apply (get_screenshot_text_shape _ Sample.disk []). reflexivity. Defined.

(** X6, witness: the same file under two names on two disks. *)
Lemma get_screenshot_content_inj_witness :
  ∃ p1 p2 B,
    BrowserStateHistory.screenshot_path
      (BrowserStateHistory.__init__ (DOMHistoryElement := Sample.element)
         "https://a.test" "A" [] [] (Some (Some "shots/step_1.png"))) = Some p1
    ∧ BrowserStateHistory.screenshot_path
        (BrowserStateHistory.__init__ (DOMHistoryElement := Sample.element)
           "https://a.test" "A" [] [] (Some (Some "copy.png"))) = Some p2
    ∧ Sample.disk !! p1 = Some (Py.RegularFile B)
    ∧ ({["copy.png" := Py.RegularFile Sample.file]} : gmap string Py.node) !! p2
      = Some (Py.RegularFile B).
Proof.
  apply (get_screenshot_content_inj _ _ _ _ [] [] "UE5H"); reflexivity.
Defined.

(** X7, witness: a file holding the placeholder image. *)
Lemma get_screenshot_placeholder_witness :
  fst (BrowserStateHistory.get_screenshot
         (BrowserStateHistory.__init__ (DOMHistoryElement := Sample.element)
            "about:blank" "" [] [] (Some (Some "blank.png")))
         {["blank.png" := Py.RegularFile
             (default [] (Base64.b64decode (Bytes.of_string PLACEHOLDER_4PX_SCREENSHOT)))]}
         [])
  = Py.Returns (Some PLACEHOLDER_4PX_SCREENSHOT).
Proof.
  eapply (get_screenshot_placeholder _ _ [] "blank.png");
    [reflexivity|discriminate|reflexivity|reflexivity].
Defined.

(** X8, witness: an entry with an empty (falsy) descriptor and one with
    an unresolved slot have the same serialized form. *)
Lemma to_dict_eq_get_screenshot_witness :
  BrowserStateHistory.get_screenshot
    (BrowserStateHistory.__init__ "https://a.test" "A" []
       [Some (Sample.Branch [])] (Some (Some "shots/step_1.png")))
    Sample.disk []
  = BrowserStateHistory.get_screenshot
      (BrowserStateHistory.__init__ (DOMHistoryElement := Sample.branch)
         "https://a.test" "A" [] [None] (Some (Some "shots/step_1.png")))
      Sample.disk [].
Proof. apply to_dict_eq_get_screenshot. reflexivity. Defined.

(** X10, witness: a descriptor without steps in the first slot. *)
Lemma to_dict_falsy_element_witness :
  BrowserStateHistory.to_dict
    (BrowserStateHistory.__init__ "https://a.test" "A" []
       [Some (Sample.Branch []); Some (Sample.Branch ["html"; "body"])] None)
  = BrowserStateHistory.to_dict
      (BrowserStateHistory.__init__ "https://a.test" "A" []
         [None; Some (Sample.Branch ["html"; "body"])] None).
Proof.
  apply (to_dict_falsy_element
           (BrowserStateHistory.__init__ "https://a.test" "A" []
              [Some (Sample.Branch []); Some (Sample.Branch ["html"; "body"])] None)
           0 (Sample.Branch [])); reflexivity.
Defined.

(** X11, witness: the two entries of the witness of X8. *)
Lemma to_dict_eq_fields_witness :
  let h1 := BrowserStateHistory.__init__ "https://a.test" "A"
              [TabInfo.__init__ 1 "https://a.test" "A" None]
              [Some (Sample.Branch [])] None in
  let h2 := BrowserStateHistory.__init__ (DOMHistoryElement := Sample.branch)
              "https://a.test" "A"
              [TabInfo.__init__ 1 "https://a.test" "A" None] [None] None in
  BrowserStateHistory.url h1 = BrowserStateHistory.url h2
  ∧ BrowserStateHistory.title h1 = BrowserStateHistory.title h2
  ∧ BrowserStateHistory.tabs h1 = BrowserStateHistory.tabs h2
  ∧ BrowserStateHistory.screenshot_path h1 = BrowserStateHistory.screenshot_path h2
  ∧ length (BrowserStateHistory.interacted_element h1)
    = length (BrowserStateHistory.interacted_element h2)
  ∧ BrowserStateHistory.dump_element <$> BrowserStateHistory.interacted_element h1
    = BrowserStateHistory.dump_element <$> BrowserStateHistory.interacted_element h2.
Proof. intros h1 h2. apply to_dict_eq_fields. reflexivity. Defined.


(** *** What escapes the accessor *)

Section escapes.
Context {E : Type} `{!HistoryElement E}.
Implicit Types (self : BrowserStateHistory.t E) (d : gmap string Py.node)
  (tr : list Py.event).

(** X14. The only exception that leaves the accessor is the one of its
    existence test: [get_screenshot] raises exactly when the recorded path
    is not empty and its [stat] fails with an error that [Path.exists]
    lets through, and it raises that error; every failure of [open], of
    [read] and of the decoding ends in a returned value. *)
Theorem get_screenshot_raises_iff self d tr (x : Py.exn_class) :
  fst (BrowserStateHistory.get_screenshot self d tr) = Py.Raises x
  ↔ ∃ p e, BrowserStateHistory.screenshot_path self = Some p ∧ p ≠ ""
           ∧ d !! p = Some (Py.Unstatable e) ∧ Py.ignore_error e = false
           ∧ x = Py.os_error_class e.
Proof.
  destruct (BrowserStateHistory.screenshot_path self) as [p|] eqn:Hp.
  - destruct (Py.str_bool p) eqn:Hb.
    + rewrite (get_screenshot_path _ d tr p Hp Hb). apply str_bool_true in Hb.
      destruct (d !! p) as [[c| |e|e|e]|] eqn:Hd;
        try destruct (Py.ignore_error e) eqn:He; cbn; split;
        try (intros [=]);
        try (intros (? & ? & ? & ? & ? & ? & ?); simplify_eq; congruence).
      subst. by exists p, e.
    + rewrite (get_screenshot_falsy_path _ d tr p Hp Hb).
      destruct p; [|done]. cbn. split; [done|].
      intros (? & ? & ? & ? & ?); by simplify_eq.
  - rewrite (get_screenshot_no_path _ d tr Hp). cbn. split; [done|].
    intros (? & ? & ? & ?); by simplify_eq.
Qed.

End escapes.

Example get_screenshot_sample_not_a_directory :
  BrowserStateHistory.get_screenshot
    (BrowserStateHistory.__init__ (DOMHistoryElement := Sample.element)
       "https://a.test" "A" [] [] (Some (Some "shots/step_1.png/x")))
    (<["shots/step_1.png/x" := Py.Unstatable Py.ENOTDIR]> Sample.disk) []
  = (Py.Returns None, [Py.EvStat "shots/step_1.png/x"]).
Proof. reflexivity. Qed.
